(** * Image-to-ICO converter: a shallow embedding of [ico_converter.py]

    The program is a Tkinter form around one call into the Pillow imaging
    library.  Two pieces carry logic:

    - the size selection inside [convert] (lines 77-87), which turns the
      "All Sizes" checkbox and the six per-size checkboxes into the list of
      [(width, height)] pairs handed to the encoder;
    - [convert_to_ico] (lines 27-48), which opens the source image inside a
      [with] block, converts it to RGBA when needed, asks Pillow to save it
      as an ICO, and turns every exception into an error dialog and a
      [False] result.

    Python integers are unbounded, so sizes are [Z].  Python dictionaries
    iterate in insertion order, so [size_vars] is an association list.  The
    file system is a finite map from paths to contents.  Pillow is outside the
    repository: its three entry points are fields of a record the embedding
    is parametric in. *)

From Stdlib Require Import ZArith List Bool String Ascii Lia Sorted DecimalString.
From stdpp Require Import base gmap strings.
Import ListNotations.

Local Open Scope Z_scope.

(** ** The size selector *)

Module Selector.

(** [sizes = [16, 32, 48, 64, 128, 256]] (module level, line 161). *)
Definition sizes : list Z := [16; 32; 48; 64; 128; 256].

(** [d[k] = v] on an insertion-ordered dictionary: an existing key keeps its
    position, a new key goes last. *)
Fixpoint dict_setitem {V : Type} (d : list (Z * V)) (k : Z) (v : V)
  : list (Z * V) :=
  match d with
  | [] => [(k, v)]
  | (k', v') :: d' =>
      if Z.eqb k' k then (k, v) :: d' else (k', v') :: dict_setitem d' k v
  end.

(** Lines 159-164: [size_vars = {}] then [size_vars[size] = var] for each
    [size] of [sizes].  [var_get size] is the current value of the
    [BooleanVar] bound to the checkbox of [size], what [var.get()] returns
    when [convert] runs. *)
Definition size_vars (var_get : Z -> bool) : list (Z * bool) :=
  fold_left (fun d size => dict_setitem d size (var_get size)) sizes [].

(** The literal of line 79. *)
Definition all_sizes_literal : list (Z * Z) :=
  [(16, 16); (32, 32); (48, 48); (64, 64); (128, 128); (256, 256)].

(** Lines 77-83 of [convert]:
<<
    sizes = []
    if all_sizes_var.get():
        sizes = [(16,16), (32,32), (48,48), (64,64), (128,128), (256,256)]
    else:
        for size, var in size_vars.items():
            if var.get():
                sizes.append((size, size))
>> *)
Definition select_sizes (all_sizes_var : bool) (sv : list (Z * bool))
  : list (Z * Z) :=
  if all_sizes_var then all_sizes_literal
  else
    fold_left
      (fun acc (item : Z * bool) =>
         let (size, var) := item in
         if var then acc ++ [(size, size)] else acc)
      sv [].

(** The square pair of a size. *)
Definition square (s : Z) : Z * Z := (s, s).

End Selector.

(** ** The runtime: files, open handles, dialogs, exceptions *)

Module Runtime.

Local Open Scope string_scope.

(** A Python exception of class [Exception]; [exc_str e] is [str(e)]. *)
Record exception := Exception { exc_str : string }.

(** A Pillow image object.  [fp] is the operating-system file handle the
    object keeps open ([None] for an image that lives in memory only),
    [mode] is [img.mode], [im_size] and [im_data] are the decoded raster. *)
Record Image := mkImage {
  fp : option nat;
  mode : string;
  im_size : Z * Z;
  im_data : list Byte.byte
}.

Definition set_fp (h : option nat) (im : Image) : Image :=
  {| fp := h; mode := mode im; im_size := im_size im; im_data := im_data im |}.

(** The three Pillow entry points the program calls.  Pillow is not part of
    the repository, so the embedding is parametric in them:
    - [Image_open files path] is [Image.open(path)]: it only reads, and
      either raises or yields the decoded image;
    - [Image_convert img mode] is [img.convert(mode)];
    - [Image_save img path format sizes files] is
      [img.save(path, format=format, sizes=sizes)]: it yields the files as
      the call leaves them and the exception it raised, if any. *)
Record Pillow := mkPillow {
  Image_open : gmap string (list Byte.byte) -> string -> exception + Image;
  Image_convert : Image -> string -> exception + Image;
  Image_save : Image -> string -> string -> list (Z * Z) ->
               gmap string (list Byte.byte) ->
               gmap string (list Byte.byte) * option exception
}.

(** What the user and the libraries see happen, in order. *)
Inductive event :=
| EvWarning (title message : string)      (* messagebox.showwarning *)
| EvError (title message : string)        (* messagebox.showerror *)
| EvInfo (title message : string)         (* messagebox.showinfo *)
| EvAskSave (defaultextension : string)   (* filedialog.asksaveasfilename *)
| EvCall (input_path output_path : string) (sizes : list (Z * Z))
                                          (* entry of convert_to_ico *)
| EvOpen (path : string) (acquired : option nat)
                                          (* Image.open, with the handle it got *)
| EvConvert (img : Image) (to_mode : string)
| EvSave (img : Image) (path format : string) (sizes : list (Z * Z))
| EvClose (handle : nat).                 (* the handle released by __exit__ *)

(** The state the program runs in. *)
Record World := mkWorld {
  files : gmap string (list Byte.byte);
  open_fps : list nat;      (* file handles currently open *)
  next_fp : nat;            (* the next handle the system hands out *)
  trace : list event
}.

Definition emit (e : event) (w : World) : World :=
  {| files := files w; open_fps := open_fps w; next_fp := next_fp w;
     trace := trace w ++ [e] |}.

Definition set_files (f : gmap string (list Byte.byte)) (w : World) : World :=
  {| files := f; open_fps := open_fps w; next_fp := next_fp w;
     trace := trace w |}.

Definition acquire_fp (w : World) : World :=
  {| files := files w; open_fps := next_fp w :: open_fps w;
     next_fp := S (next_fp w); trace := trace w |}.

Fixpoint remove_first (h : nat) (l : list nat) : list nat :=
  match l with
  | [] => []
  | x :: l' => if Nat.eqb x h then l' else x :: remove_first h l'
  end.

Definition release_fp (h : nat) (w : World) : World :=
  {| files := files w; open_fps := remove_first h (open_fps w);
     next_fp := next_fp w; trace := trace w |}.

(** Computations that read and change the world and either return a value
    or raise. *)
Definition M (A : Type) : Type := World -> (exception + A) * World.

Definition ret {A} (a : A) : M A := fun w => (inr a, w).

Definition raise {A} (e : exception) : M A := fun w => (inl e, w).

Definition bind {A B} (m : M A) (k : A -> M B) : M B :=
  fun w =>
    match m w with
    | (inl e, w') => (inl e, w')
    | (inr a, w') => k a w'
    end.

Definition log (e : event) : M unit := fun w => (inr tt, emit e w).

Notation "'let*' x := m 'in' k" := (bind m (fun x => k))
  (at level 10, x name, m at level 100, k at level 200).
Notation "m ;; k" := (bind m (fun _ => k))
  (at level 100, k at level 200, right associativity).

(** [try: body  except Exception as e: handler e]. *)
Definition try_except {A} (body : M A) (handler : exception -> M A) : M A :=
  fun w =>
    match body w with
    | (inl e, w') => handler e w'
    | (inr a, w') => (inr a, w')
    end.

(** [Image.__exit__]: close the file handle the image object holds. *)
Definition Image_exit (mgr : Image) (w : World) : World :=
  match fp mgr with
  | Some h => emit (EvClose h) (release_fp h w)
  | None => w
  end.

(** [with expr as img: body].  The context manager is the object [expr]
    evaluates to; its [__exit__] runs when the block is left, normally or by
    an exception, and it is that object's [__exit__] whatever [body] rebinds
    [img] to.  An exception raised by [expr] itself leaves nothing to
    release. *)
Definition with_as {A} (expr : M Image) (body : Image -> M A) : M A :=
  fun w =>
    match expr w with
    | (inl e, w1) => (inl e, w1)
    | (inr mgr, w1) =>
        let (r, w2) := body mgr w1 in (r, Image_exit mgr w2)
    end.

Section WithPillow.

Variable L : Pillow.

(** [Image.open(path)]: on success the image object holds a fresh handle on
    the file. *)
Definition py_Image_open (path : string) : M Image :=
  fun w =>
    match Image_open L (files w) path with
    | inl e => (inl e, emit (EvOpen path None) w)
    | inr im =>
        let h := next_fp w in
        (inr (set_fp (Some h) im), emit (EvOpen path (Some h)) (acquire_fp w))
    end.

(** [img.convert(mode)]: a new in-memory image, or an exception. *)
Definition py_convert (img : Image) (to_mode : string) : M Image :=
  fun w =>
    match Image_convert L img to_mode with
    | inl e => (inl e, emit (EvConvert img to_mode) w)
    | inr im' => (inr (set_fp None im'), emit (EvConvert img to_mode) w)
    end.

(** [img.save(path, format=format, sizes=sizes)]. *)
Definition py_save (img : Image) (path format : string)
    (sizes : list (Z * Z)) : M unit :=
  fun w =>
    let w1 := emit (EvSave img path format sizes) w in
    match Image_save L img path format sizes (files w) with
    | (f', Some e) => (inl e, set_files f' w1)
    | (f', None) => (inr tt, set_files f' w1)
    end.

(** Lines 27-48:
<<
def convert_to_ico(input_path, output_path, sizes):
    try:
        with Image.open(input_path) as img:
            if img.mode != 'RGBA':
                img = img.convert('RGBA')
            img.save(output_path, format='ICO', sizes=sizes)
        return True
    except Exception as e:
        messagebox.showerror("Error", f"An error occurred: {str(e)}")
        return False
>> *)
Definition convert_to_ico (input_path output_path : string)
    (sizes : list (Z * Z)) : M bool :=
  log (EvCall input_path output_path sizes) ;;
  try_except
    (with_as (py_Image_open input_path)
       (fun img =>
          let* img := (if negb (String.eqb (mode img) "RGBA")
                       then py_convert img "RGBA"
                       else ret img) in
          py_save img output_path "ICO" sizes) ;;
     ret true)
    (fun e =>
       log (EvError "Error" (String.append "An error occurred: " (exc_str e))) ;;
       ret false).

End WithPillow.

(** What the program relies on from [img.save(path, ...)], stated for a
    library given as a [Pillow] record: the call touches no file but the
    one at [path]. *)
Definition save_only_touches_path (L : Pillow) : Prop :=
  forall (img : Image) (path format : string) (sizes : list (Z * Z))
         (fs : gmap string (list Byte.byte)) (q : string),
    q <> path -> fst (Image_save L img path format sizes fs) !! q = fs !! q.

(** The events a run added to the trace of the world it started in. *)
Definition since (w w' : World) : list event :=
  skipn (length (trace w)) (trace w').

(** [convert_to_ico] was entered. *)
Definition is_call (e : event) : bool :=
  match e with EvCall _ _ _ => true | _ => false end.

Definition converter_invoked (t : list event) : bool := existsb is_call t.

(** The messages of the warning dialogs shown. *)
Definition warnings (t : list event) : list string :=
  flat_map (fun e => match e with EvWarning _ m => [m] | _ => [] end) t.

(** The messages of the error dialogs shown. *)
Definition errors (t : list event) : list string :=
  flat_map (fun e => match e with EvError _ m => [m] | _ => [] end) t.


(** The [save] calls made: image, path, format, sizes. *)
Definition saves (t : list event)
  : list (Image * string * string * list (Z * Z)) :=
  flat_map (fun e => match e with
                     | EvSave i p f s => [(i, p, f, s)]
                     | _ => []
                     end) t.

(** The handles acquired and the handles released, in order. *)
Definition acquired (t : list event) : list nat :=
  flat_map (fun e => match e with EvOpen _ (Some h) => [h] | _ => [] end) t.

Definition released (t : list event) : list nat :=
  flat_map (fun e => match e with EvClose h => [h] | _ => [] end) t.

End Runtime.

(** ** The form and its Convert button *)

Module Gui.

Import Runtime.
Local Open Scope string_scope.

(** The widgets [convert] reads: the text of [input_entry], the value of
    [all_sizes_var], and the values of the six variables of [size_vars]. *)
Record Form := mkForm {
  input_entry : string;
  all_sizes_var : bool;
  size_var : Z -> bool
}.

(** [filedialog.asksaveasfilename(defaultextension=".ico", ...)]: the dialog
    is shown and returns what the user chose, the empty string when the
    dialog is cancelled. *)
Definition asksaveasfilename (chosen : string) : M string :=
  log (EvAskSave ".ico") ;; ret chosen.

(** Python's [not s] on a string. *)
Definition not_str (s : string) : bool :=
  match s with EmptyString => true | String _ _ => false end.

(** Python's [not l] on a list. *)
Definition not_list {A} (l : list A) : bool :=
  match l with [] => true | _ :: _ => false end.

Section WithPillow.

Variable L : Pillow.

(** Lines 62-91:
<<
def convert():
    input_path = input_entry.get()
    if not input_path:
        messagebox.showwarning("Warning", "Please select an input file.")
        return
    output_path = filedialog.asksaveasfilename(defaultextension=".ico", ...)
    if not output_path:
        return
    sizes = ...                      # lines 77-83, [Selector.select_sizes]
    if not sizes:
        messagebox.showwarning("Warning", "Please select at least one icon size.")
        return
    if convert_to_ico(input_path, output_path, sizes):
        messagebox.showinfo("Success", f"Successfully converted {input_path} to {output_path}")
>>
    [chosen] is the user's answer to the save dialog. *)
Definition convert (form : Form) (chosen : string) : M unit :=
  let input_path := input_entry form in
  if not_str input_path then
    log (EvWarning "Warning" "Please select an input file.")
  else
    let* output_path := asksaveasfilename chosen in
    if not_str output_path then ret tt
    else
      let sizes :=
        Selector.select_sizes (all_sizes_var form)
          (Selector.size_vars (size_var form)) in
      if not_list sizes then
        log (EvWarning "Warning" "Please select at least one icon size.")
      else
        let* ok := convert_to_ico L input_path output_path sizes in
        if (ok : bool) then
          log (EvInfo "Success"
                 (String.append "Successfully converted "
                    (String.append input_path
                       (String.append " to " output_path))))
        else ret tt.

End WithPillow.

End Gui.

(** ** Two stand-in libraries, to run the embedding on concrete inputs *)

Module Standin.

Import Runtime.
Local Open Scope string_scope.

Definition byte_of_Z (z : Z) : Byte.byte :=
  match Byte.of_N (Z.to_N (z mod 256)) with
  | Some b => b
  | None => Byte.x00
  end.

(** The six bytes of an ICO header (reserved, type 1, image count) followed
    by a width and a height byte per entry: enough of a container to tell a
    complete file from a truncated one. *)
Definition ico_header (n : nat) : list Byte.byte :=
  [Byte.x00; Byte.x00; Byte.x01; Byte.x00; byte_of_Z (Z.of_nat n); Byte.x00].

Definition ico_bytes (sizes : list (Z * Z)) : list Byte.byte :=
  ico_header (length sizes)
  ++ flat_map (fun wh : Z * Z => [byte_of_Z (fst wh); byte_of_Z (snd wh)]) sizes.

(** A missing file raises, an empty file is not an image, a file that
    starts with the PNG signature byte decodes as RGBA and anything else as
    RGB. *)
Definition open_standin (fs : gmap string (list Byte.byte)) (path : string)
  : exception + Image :=
  match fs !! path with
  | None => inl (Exception "[Errno 2] No such file or directory")
  | Some [] => inl (Exception "cannot identify image file")
  | Some (b :: rest) =>
      inr {| fp := None;
             mode := if Byte.eqb b Byte.x89 then "RGBA" else "RGB";
             im_size := (1, 1);
             im_data := rest |}
  end.

Definition convert_standin (img : Image) (to_mode : string)
  : exception + Image :=
  inr {| fp := None; mode := to_mode;
         im_size := im_size img; im_data := im_data img |}.

(** A library whose [save] writes the whole container at [path]. *)
Definition good : Pillow :=
  {| Image_open := open_standin;
     Image_convert := convert_standin;
     Image_save := fun _ path _ sizes fs =>
                     (<[path := ico_bytes sizes]> fs, None) |}.

(** A library whose [save] creates the file, writes the first four bytes
    of the header and then fails, as a write on a full disk does. *)
Definition disk_full : Pillow :=
  {| Image_open := open_standin;
     Image_convert := convert_standin;
     Image_save := fun _ path _ _ fs =>
                     (<[path := [Byte.x00; Byte.x00; Byte.x01; Byte.x00]]> fs,
                      Some (Exception "[Errno 28] No space left on device")) |}.

(** A one-byte stand-in for a PNG file and for a JPEG file. *)
Definition png_file : list Byte.byte := [Byte.x89; Byte.x50].
Definition jpg_file : list Byte.byte := [Byte.xff; Byte.xd8].

(** A world holding one PNG and one JPEG, nothing open, nothing logged. *)
Definition world0 : World :=
  {| files := <["photo.png" := png_file]> (<["photo.jpg" := jpg_file]> ∅);
     open_fps := [];
     next_fp := 3%nat;
     trace := [] |}.

End Standin.

(** ** The window: the widgets and the other two callbacks *)

Module Window.

Import Runtime Gui.
Local Open Scope string_scope.

(** [tk.NORMAL] and [tk.DISABLED]. *)
Inductive widget_state := NORMAL | DISABLED.

(** An index into the text of an [Entry]: a character position, or
    [tk.END]. *)
Inductive tk_index := At (n : nat) | END.

Definition index_pos (text : string) (i : tk_index) : nat :=
  match i with
  | At n => Nat.min n (String.length text)
  | END => String.length text
  end.

(** [entry.delete(first, last)]: drop the characters from [first] up to,
    not including, [last]; nothing when the range is empty. *)
Definition entry_delete (first last : tk_index) (text : string) : string :=
  let f := index_pos text first in
  let l := index_pos text last in
  if Nat.leb l f then text
  else String.append (String.substring 0 f text)
         (String.substring l (String.length text - l) text).

(** [entry.insert(index, s)]: put [s] before the character at [index]. *)
Definition entry_insert (index : tk_index) (s text : string) : string :=
  let p := index_pos text index in
  String.append (String.substring 0 p text)
    (String.append s (String.substring p (String.length text - p) text)).

(** One of the per-size checkboxes of lines 162-167: its label, the key of
    the variable it is bound to, its state and its grid cell. *)
Record Checkbutton := mkCheckbutton {
  cb_text : string;
  cb_variable : Z;
  cb_state : widget_state;
  cb_row : Z;
  cb_column : Z
}.

(** [cb.config(state=st)]. *)
Definition config_state (st : widget_state) (cb : Checkbutton) : Checkbutton :=
  {| cb_text := cb_text cb; cb_variable := cb_variable cb; cb_state := st;
     cb_row := cb_row cb; cb_column := cb_column cb |}.

(** The widgets the callbacks read and write: the text of [input_entry],
    [all_sizes_var], the dictionary [size_vars] and the list
    [size_checkbuttons]. *)
Record Widgets := mkWidgets {
  entry_text : string;
  all_sizes : bool;
  vars : list (Z * bool);
  size_checkbuttons : list Checkbutton
}.

(** [str(n)] for an integer. *)
Definition str (n : Z) : string := NilZero.string_of_int (Z.to_int n).

(** [enumerate(l)]. *)
Definition enumerate {A} (l : list A) : list (Z * A) :=
  combine (map Z.of_nat (seq 0 (length l))) l.

(** The grid cell of the [i]-th checkbox: [row=(i // 3) + 1],
    [column=i % 3] (line 166). *)
Definition grid_cell (i : Z) : Z * Z := (i / 3 + 1, i mod 3).

(** The body of the loop of lines 162-167 for one [(i, size)]:
<<
    var = tk.BooleanVar(value=False)
    size_vars[size] = var
    cb = tk.Checkbutton(size_frame, text=f"{size}x{size}", variable=var, state=tk.DISABLED)
    cb.grid(row=(i // 3) + 1, column=i % 3, sticky="w")
    size_checkbuttons.append(cb)
>> *)
Definition add_size (acc : list (Z * bool) * list Checkbutton)
    (item : Z * Z) : list (Z * bool) * list Checkbutton :=
  let (i, size) := item in
  (Selector.dict_setitem (fst acc) size false,
   (snd acc ++ [{| cb_text := String.append (str size)
                                (String.append "x" (str size));
                   cb_variable := size;
                   cb_state := DISABLED;
                   cb_row := fst (grid_cell i);
                   cb_column := snd (grid_cell i) |}])%list).

(** The window the module-level code of lines 143-167 builds for a list of
    sizes: an empty entry, "All Sizes" set, every size variable [False],
    every size checkbox disabled. *)
Definition build (sizes : list Z) : Widgets :=
  let built := fold_left add_size (enumerate sizes) ([], []) in
  {| entry_text := "";
     all_sizes := true;
     vars := fst built;
     size_checkbuttons := snd built |}.

(** The window as the program starts it. *)
Definition startup : Widgets := build Selector.sizes.

(** Lines 94-100:
<<
def toggle_all_sizes():
    state = tk.DISABLED if all_sizes_var.get() else tk.NORMAL
    for cb in size_checkbuttons:
        cb.config(state=state)
>> *)
Definition toggle_all_sizes (win : Widgets) : Widgets :=
  let state := if all_sizes win then DISABLED else NORMAL in
  {| entry_text := entry_text win;
     all_sizes := all_sizes win;
     vars := vars win;
     size_checkbuttons := map (config_state state) (size_checkbuttons win) |}.

(** Lines 51-59, [chosen] being what the open dialog returned (the empty
    string when it is cancelled):
<<
def select_input_file():
    file_path = filedialog.askopenfilename(filetypes=[...])
    if file_path:
        input_entry.delete(0, tk.END)
        input_entry.insert(0, file_path)
>> *)
Definition select_input_file (chosen : string) (win : Widgets) : Widgets :=
  let file_path := chosen in
  if not_str file_path then win
  else
    {| entry_text :=
         entry_insert (At 0) file_path
           (entry_delete (At 0) END (entry_text win));
       all_sizes := all_sizes win;
       vars := vars win;
       size_checkbuttons := size_checkbuttons win |}.

(** [size_vars[size].get()], [False] for a size that has no variable. *)
Fixpoint var_get (d : list (Z * bool)) (size : Z) : bool :=
  match d with
  | [] => false
  | (k, v) :: d' => if Z.eqb k size then v else var_get d' size
  end.

(** What [convert] reads off the window. *)
Definition form_of (win : Widgets) : Form :=
  {| input_entry := entry_text win;
     all_sizes_var := all_sizes win;
     size_var := var_get (vars win) |}.

(** Tk inverts the variable of a checkbox that is clicked. *)
Definition flip_var (size : Z) (d : list (Z * bool)) : list (Z * bool) :=
  map (fun item : Z * bool =>
         if Z.eqb (fst item) size then (fst item, negb (snd item)) else item)
      d.

(** What the user can do to the window.  Tk's part is standard: a click on
    an enabled checkbox inverts its variable and then runs its [command],
    a click on a disabled one does nothing.  "All Sizes" is never disabled
    and has [command=toggle_all_sizes] (line 155); the size checkboxes have
    no command.  The Browse button runs [select_input_file]; the Convert
    button runs [convert], which reads the widgets and changes none. *)
Inductive action :=
| ClickAllSizes
| ClickSize (n : nat)             (* the n-th of size_checkbuttons *)
| TypeText (text : string)        (* edit the entry by hand *)
| Browse (chosen : string)        (* Browse, and the dialog's answer *)
| ClickConvert.

Definition step (win : Widgets) (a : action) : Widgets :=
  match a with
  | ClickAllSizes =>
      toggle_all_sizes
        {| entry_text := entry_text win;
           all_sizes := negb (all_sizes win);
           vars := vars win;
           size_checkbuttons := size_checkbuttons win |}
  | ClickSize n =>
      match nth_error (size_checkbuttons win) n with
      | Some cb =>
          match cb_state cb with
          | NORMAL =>
              {| entry_text := entry_text win;
                 all_sizes := all_sizes win;
                 vars := flip_var (cb_variable cb) (vars win);
                 size_checkbuttons := size_checkbuttons win |}
          | DISABLED => win
          end
      | None => win
      end
  | TypeText text =>
      {| entry_text := text;
         all_sizes := all_sizes win;
         vars := vars win;
         size_checkbuttons := size_checkbuttons win |}
  | Browse chosen => select_input_file chosen win
  | ClickConvert => win
  end.

(** The window after a sequence of user actions. *)
Definition after (actions : list action) : Widgets :=
  fold_left step actions startup.

(** The window is in step with "All Sizes": there is one variable and one
    checkbox per size, in the order of [sizes], and every size checkbox is
    disabled exactly when "All Sizes" is set. *)
Definition in_step (win : Widgets) : Prop :=
  map fst (vars win) = Selector.sizes
  /\ map cb_variable (size_checkbuttons win) = Selector.sizes
  /\ List.Forall
       (fun cb => cb_state cb = if all_sizes win then DISABLED else NORMAL)
       (size_checkbuttons win).

End Window.

(** ** Reading a trace *)

Module Dialogs.

Import Runtime.

(** The texts of the information dialogs shown. *)
Definition infos (t : list event) : list string :=
  flat_map (fun e => match e with EvInfo _ m => [m] | _ => [] end) t.

(** A message box of any kind. *)
Definition is_dialog (e : event) : bool :=
  match e with
  | EvWarning _ _ | EvError _ _ | EvInfo _ _ => true
  | _ => false
  end.

(** The message boxes shown, in order. *)
Definition dialogs (t : list event) : list event := List.filter is_dialog t.

(** The calls of [convert_to_ico]: input path, output path, sizes. *)
Definition calls (t : list event) : list (string * string * list (Z * Z)) :=
  flat_map (fun e => match e with EvCall i o s => [(i, o, s)] | _ => [] end) t.

End Dialogs.

(** ** Reading an icon back, and a library that skips large sizes *)

Module Icons.

Import Runtime.
Local Open Scope string_scope.










End Icons.

(** * Properties *)

(** ** The size selector *)

Module SelectorFacts.

Import Selector.

(** The dictionary built at start-up lists the six sizes in the order of
    [sizes], each with the value of its checkbox. *)
Lemma size_vars_items (var_get : Z -> bool) :
  size_vars var_get = map (fun s => (s, var_get s)) sizes.
Proof. reflexivity. Qed.

Lemma size_vars_keys (var_get : Z -> bool) :
  map fst (size_vars var_get) = sizes.
Proof. reflexivity. Qed.

(** The loop of lines 81-83 appends, to what it started from, the square
    of every key whose variable is set, in dictionary order. *)
Lemma append_loop (sv : list (Z * bool)) (acc : list (Z * Z)) :
  fold_left
    (fun acc (item : Z * bool) =>
       let (size, var) := item in
       if var then acc ++ [(size, size)] else acc)
    sv acc
  = acc ++ map square (map fst (List.filter snd sv)).
Proof.
  revert acc.
  induction sv as [| [size var] sv IH]; intros acc; simpl.
  - now rewrite app_nil_r.
  - rewrite IH. destruct var; simpl.
    + now rewrite <- app_assoc.
    + reflexivity.
Qed.

Lemma filter_items (var_get : Z -> bool) (l : list Z) :
  map fst (List.filter snd (map (fun s => (s, var_get s)) l))
  = List.filter var_get l.
Proof.
  induction l as [| s l IH]; simpl; [reflexivity |].
  destruct (var_get s); simpl; now rewrite IH.
Qed.

Lemma select_individual (var_get : Z -> bool) :
  select_sizes false (size_vars var_get)
  = map square (List.filter var_get sizes).
Proof.
  unfold select_sizes. rewrite append_loop, size_vars_items, filter_items.
  reflexivity.
Qed.

Lemma sizes_ascending : StronglySorted Z.lt sizes.
Proof.
  unfold sizes.
  repeat (apply SSorted_cons; [| repeat (constructor; [lia |]); constructor]).
  apply SSorted_nil.
Qed.

Lemma filter_ascending (f : Z -> bool) (l : list Z) :
  StronglySorted Z.lt l -> StronglySorted Z.lt (List.filter f l).
Proof.
  induction 1 as [| a l Hl IH Ha]; simpl.
  - apply SSorted_nil.
  - destruct (f a); [| exact IH].
    apply SSorted_cons; [exact IH |].
    rewrite List.Forall_forall in *. intros x Hx.
    apply filter_In in Hx. now apply Ha.
Qed.

Lemma fst_square (l : list Z) : map fst (map square l) = l.
Proof. induction l as [| s l IH]; simpl; [| rewrite IH]; reflexivity. Qed.

Lemma ascending_NoDup (l : list Z) : StronglySorted Z.lt l -> List.NoDup l.
Proof.
  induction 1 as [| a l Hl IH Ha].
  - constructor.
  - constructor; [| exact IH].
    intros Hin. rewrite List.Forall_forall in Ha. specialize (Ha a Hin). lia.
Qed.

Lemma NoDup_of_fst {A B} (l : list (A * B)) : List.NoDup (map fst l) -> List.NoDup l.
Proof.
  induction l as [| p l IH]; simpl; intros H.
  - constructor.
  - inversion H as [| x xs Hnot Hrest]; subst.
    constructor; [| now apply IH].
    intros Hin. apply Hnot. now apply in_map.
Qed.

Lemma all_sizes_squares : all_sizes_literal = map square sizes.
Proof. reflexivity. Qed.

(** Whatever the flags, the produced list is the squares of an ascending
    selection of [sizes]. *)
Lemma select_shape (all : bool) (var_get : Z -> bool) :
  exists f : Z -> bool,
    select_sizes all (size_vars var_get) = map square (List.filter f sizes).
Proof.
  destruct all.
  - exists (fun _ => true). reflexivity.
  - exists var_get. apply select_individual.
Qed.

(** C1: with "All Sizes" set, the selector yields the six canonical square
    pairs (16,16) ... (256,256), whatever the six individual flags are --
    and indeed whatever dictionary of flags it is given. *)
Theorem all_sizes_ignores_flags :
  (forall var_get : Z -> bool,
      select_sizes true (size_vars var_get)
      = [(16, 16); (32, 32); (48, 48); (64, 64); (128, 128); (256, 256)])
  /\ (forall sv : list (Z * bool),
      select_sizes true sv
      = [(16, 16); (32, 32); (48, 48); (64, 64); (128, 128); (256, 256)]).
Proof. split; intros; reflexivity. Qed.

(** C2: with "All Sizes" clear and the individual flags set exactly for the
    members of a subset [S] of the candidate sizes, the selector yields the
    pairs [(s, s)] for [s] in [S] and nothing else, in ascending order: the
    list is the squares of the flagged candidates in the order of
    [sizes], its members are exactly the squares of the members of [S],
    and its widths are strictly increasing. *)
Theorem individual_sizes_exact (S : list Z) (var_get : Z -> bool) :
  (forall s, In s S -> In s sizes) ->
  (forall s, In s sizes -> (var_get s = true <-> In s S)) ->
  let produced := select_sizes false (size_vars var_get) in
  produced = map square (List.filter var_get sizes)
  /\ (forall p, In p produced <-> exists s, In s S /\ p = (s, s))
  /\ StronglySorted Z.lt (map fst produced).
Proof.
  intros Hsub Hflags produced. subst produced.
  rewrite select_individual. split; [reflexivity |]. split.
  - intros p. rewrite in_map_iff. split.
    + intros [s [Hp Hs]]. apply filter_In in Hs. destruct Hs as [Hin Hset].
      exists s. split; [now apply Hflags | now rewrite <- Hp].
    + intros [s [HS Hp]]. exists s. split; [now rewrite Hp |].
      apply filter_In. split; [now apply Hsub |].
      apply Hflags; [now apply Hsub | exact HS].
  - rewrite fst_square. apply filter_ascending, sizes_ascending.
Qed.

(** C9: every list the selector produces, with "All Sizes" set or clear,
    holds only pairs [(s, s)] with [s] one of 16, 32, 48, 64, 128, 256, and
    holds no pair twice. *)
Theorem produced_sizes_square_canonical_distinct
    (all : bool) (var_get : Z -> bool) :
  (forall p, In p (select_sizes all (size_vars var_get)) ->
     exists s, In s [16; 32; 48; 64; 128; 256] /\ p = (s, s))
  /\ List.NoDup (select_sizes all (size_vars var_get))
  /\ List.NoDup (map fst (select_sizes all (size_vars var_get))).
Proof.
  destruct (select_shape all var_get) as [f ->].
  assert (Hnd : List.NoDup (map fst (map square (List.filter f sizes)))).
  { rewrite fst_square. apply ascending_NoDup, filter_ascending, sizes_ascending. }
  split; [| split].
  - intros p Hp. apply in_map_iff in Hp. destruct Hp as [s [Hp Hs]].
    apply filter_In in Hs. exists s. split; [apply Hs | now rewrite <- Hp].
  - now apply NoDup_of_fst.
  - exact Hnd.
Qed.

(** A run of C2: the flags of 16 and 48 set, [S = [48; 16]]. *)
Lemma individual_sizes_exact_witness :
  select_sizes false (size_vars (fun s => Z.eqb s 16 || Z.eqb s 48))
  = map square (List.filter (fun s => Z.eqb s 16 || Z.eqb s 48) sizes)
  /\ (forall p,
        In p (select_sizes false (size_vars (fun s => Z.eqb s 16 || Z.eqb s 48)))
        <-> exists s, In s [48; 16] /\ p = (s, s))
  /\ StronglySorted Z.lt
       (map fst (select_sizes false
                   (size_vars (fun s => Z.eqb s 16 || Z.eqb s 48)))).
Proof.
  apply (individual_sizes_exact [48; 16] (fun s => Z.eqb s 16 || Z.eqb s 48)).
  - intros s [<- | [<- | []]]; simpl; tauto.
  - intros s Hs. simpl in Hs.
    destruct Hs as [<- | [<- | [<- | [<- | [<- | [<- | []]]]]]];
      simpl; split; intros H; try discriminate; try tauto;
      destruct H as [H | [H | []]]; discriminate.
Defined.

End SelectorFacts.

(** ** The converter *)

Module ConverterFacts.

Import Runtime.
Local Open Scope string_scope.

Lemma skipn_length_app {A} (t l : list A) : skipn (length t) (t ++ l) = l.
Proof. induction t as [| x t IH]; simpl; [reflexivity | exact IH]. Qed.

Lemma since_extend (w w' : World) (l : list event) :
  trace w' = (trace w ++ l)%list -> since w w' = l.
Proof. intros H. unfold since. rewrite H. apply skipn_length_app. Qed.

Lemma remove_first_head (h : nat) (l : list nat) : remove_first h (h :: l) = l.
Proof. simpl. now rewrite Nat.eqb_refl. Qed.

Lemma mode_eqb_true (m : string) : String.eqb m "RGBA" = true -> m = "RGBA".
Proof. apply String.eqb_eq. Qed.

Lemma mode_eqb_false (m : string) : String.eqb m "RGBA" = false -> m <> "RGBA".
Proof. apply String.eqb_neq. Qed.

(** Run [convert_to_ico] symbolically: one goal per outcome of the three
    library calls. *)
Ltac run_converter L w i o s :=
  unfold convert_to_ico, bind, try_except, with_as, py_Image_open,
    py_convert, py_save, log, ret;
  cbn [fst snd files trace open_fps next_fp emit acquire_fp set_files];
  destruct (Image_open L (files w) i) as [eo | im0] eqn:Hopen;
  cbn [fst snd files trace open_fps next_fp emit acquire_fp set_files
       set_fp mode fp];
  [| destruct (String.eqb (mode im0) "RGBA") eqn:Hmode;
     cbn [negb fst snd files trace open_fps next_fp emit acquire_fp
          set_files set_fp mode fp];
     [| destruct (Image_convert L (set_fp (Some (next_fp w)) im0) "RGBA")
          as [ec | im1] eqn:Hconv;
        cbn [fst snd files trace open_fps next_fp emit acquire_fp
             set_files set_fp mode fp] ];
     match goal with
     | |- context [Image_save L ?img o "ICO" s (files w)] =>
         destruct (Image_save L img o "ICO" s (files w))
           as [f' [es |]] eqn:Hsave
     | _ => idtac
     end;
     cbn [fst snd files trace open_fps next_fp emit acquire_fp set_files
          set_fp mode fp Image_exit release_fp] ].

(** Turn the outcome of the test [img.mode != 'RGBA'] into a statement
    about the mode. *)
Ltac read_mode :=
  match goal with
  | H : String.eqb _ "RGBA" = true |- _ => apply mode_eqb_true in H
  | H : String.eqb _ "RGBA" = false |- _ => apply mode_eqb_false in H
  | _ => idtac
  end.

(** Two hypotheses about the result of one library call: combine them. *)
Ltac same_call :=
  repeat match goal with
         | H1 : ?x = _, H2 : ?x = _ |- _ => rewrite H1 in H2
         end.

(** Bring the added events of a finished run into list form. *)
Ltac read_trace :=
  repeat match goal with
         | |- context [since ?w ?w'] =>
             erewrite (since_extend w w');
             [| cbn [trace emit release_fp set_files acquire_fp];
                rewrite <- ?app_assoc; cbn [app]; reflexivity]
         end.

(** The converter always returns: every exception is turned into [False]. *)
Lemma convert_to_ico_returns (L : Pillow) (w : World) (i o : string)
    (s : list (Z * Z)) :
  exists b : bool, fst (convert_to_ico L i o s w) = inr b.
Proof. run_converter L w i o s; eauto. Qed.

(** C8: whatever the library calls do, when [convert_to_ico] returns -- and
    it always returns -- the handle [Image.open] acquired has been released:
    the handles released during the call are the handles acquired during
    it, a successful [Image.open] acquires exactly one, and the set of open
    handles is what it was before the call. *)
Theorem handle_released (L : Pillow) (w : World) (i o : string)
    (s : list (Z * Z)) :
  let r := convert_to_ico L i o s w in
  (exists b : bool, fst r = inr b)
  /\ open_fps (snd r) = open_fps w
  /\ released (since w (snd r)) = acquired (since w (snd r))
  /\ (forall im, Image_open L (files w) i = inr im ->
        acquired (since w (snd r)) = [next_fp w])
  /\ (forall e, Image_open L (files w) i = inl e ->
        acquired (since w (snd r)) = []).
Proof.
  run_converter L w i o s;
    rewrite ?remove_first_head; read_trace;
    (split; [eauto |]); (split; [reflexivity |]); (split; [reflexivity |]);
    split; intros; (reflexivity || discriminate).
Qed.




(** C4, as the code has it: whenever a library call raises, the converter
    returns [False] and shows one error dialog with the text of the
    exception.  A failure of [Image.open] or of [convert] comes before any
    write, so the files are untouched.  A failure of [save] is not cleaned
    up: the converter writes through no temporary file and removes nothing,
    so the destination is left as the library's [save] left it.  The
    converter returns [False] in no other way. *)
Theorem failure_reported_without_cleanup (L : Pillow) (w : World)
    (i o : string) (s : list (Z * Z)) :
  let r := convert_to_ico L i o s w in
  let t := since w (snd r) in
  (forall e, Image_open L (files w) i = inl e ->
     fst r = inr false
     /\ t = [EvCall i o s; EvOpen i None;
             EvError "Error" (String.append "An error occurred: " (exc_str e))]
     /\ files (snd r) = files w)
  /\ (forall src e,
        Image_open L (files w) i = inr src ->
        mode src <> "RGBA" ->
        Image_convert L (set_fp (Some (next_fp w)) src) "RGBA" = inl e ->
        fst r = inr false
        /\ errors t = [String.append "An error occurred: " (exc_str e)]
        /\ saves t = []
        /\ files (snd r) = files w)
  /\ (forall src img f' e,
        Image_open L (files w) i = inr src ->
        (mode src = "RGBA" /\ img = set_fp (Some (next_fp w)) src
         \/ mode src <> "RGBA"
            /\ exists im1,
                 Image_convert L (set_fp (Some (next_fp w)) src) "RGBA"
                 = inr im1
                 /\ img = set_fp None im1) ->
        Image_save L img o "ICO" s (files w) = (f', Some e) ->
        fst r = inr false
        /\ errors t = [String.append "An error occurred: " (exc_str e)]
        /\ saves t = [(img, o, "ICO", s)]
        /\ files (snd r) = f')
  /\ (fst r = inr false -> exists e,
        errors t = [String.append "An error occurred: " (exc_str e)]).
Proof.
  cbv zeta.
  run_converter L w i o s; read_trace; read_mode;
    cbn [errors saves flat_map app].
  all: split; [| split; [| split]]; intros.
  all: try match goal with
           | H : _ \/ _ |- _ => destruct H as [[? ?] | [? [? [? ?]]]]
           end.
  all: do 3 (simplify_eq; same_call); simplify_eq; try contradiction.
  all: repeat split; eauto.
Qed.

(** A run of C4 as amended: on a full disk the failed [save] is reported
    and [False] is returned. *)
Lemma failure_reported_without_cleanup_witness :
  fst (convert_to_ico Standin.disk_full "photo.png" "out.ico" [(16, 16)%Z]
         Standin.world0) = inr false
  /\ errors (since Standin.world0
               (snd (convert_to_ico Standin.disk_full "photo.png" "out.ico"
                       [(16, 16)%Z] Standin.world0)))
     = ["An error occurred: [Errno 28] No space left on device"].
Proof.
  destruct (failure_reported_without_cleanup Standin.disk_full Standin.world0
              "photo.png" "out.ico" [(16, 16)%Z]) as [_ [_ [Hsave _]]].
  destruct (Hsave
              {| fp := None; mode := "RGBA"; im_size := (1, 1)%Z;
                 im_data := [Byte.x50] |}
              {| fp := Some 3%nat; mode := "RGBA"; im_size := (1, 1)%Z;
                 im_data := [Byte.x50] |}
              (<["out.ico" := [Byte.x00; Byte.x00; Byte.x01; Byte.x00]]>
                 (files Standin.world0))
              (Exception "[Errno 28] No space left on device"))
    as [Hret [Herr _]].
  - vm_compute. reflexivity.
  - left. split; reflexivity.
  - reflexivity.
  - split; [exact Hret | exact Herr].
Defined.

(** C4 as stated fails.  With a library whose [save] creates the file and
    then fails, converting [photo.png] to [out.ico] returns [False], yet
    [out.ico], which did not exist before the call, is left behind holding
    the first four bytes of an ICO header. *)
Lemma failed_save_leaves_partial_output :
  fst (convert_to_ico Standin.disk_full "photo.png" "out.ico" [(16, 16)%Z]
         Standin.world0) = inr false
  /\ files Standin.world0 !! "out.ico" = None
  /\ files (snd (convert_to_ico Standin.disk_full "photo.png" "out.ico"
                   [(16, 16)%Z] Standin.world0)) !! "out.ico"
     = Some [Byte.x00; Byte.x00; Byte.x01; Byte.x00]
  /\ Standin.ico_bytes [(16, 16)%Z]
     = [Byte.x00; Byte.x00; Byte.x01; Byte.x00; Byte.x01; Byte.x00;
        Byte.x10; Byte.x10].
Proof. repeat split; vm_compute; reflexivity. Qed.

Lemma good_save_only_touches_path : save_only_touches_path Standin.good.
Proof.
  intros img path format sizes fs q Hq. cbn.
  rewrite lookup_insert_ne; [reflexivity | congruence].
Qed.

(** C10, as the code has it: given a library whose [save] touches only the
    path it is handed, a call of [convert_to_ico] changes no file but the
    one at the output path; so the source file is neither written nor
    deleted whenever the input path differs from the output path. *)
Theorem only_output_path_written (L : Pillow) (w : World) (i o : string)
    (s : list (Z * Z)) :
  save_only_touches_path L ->
  (forall p : string, p <> o ->
     files (snd (convert_to_ico L i o s w)) !! p = files w !! p)
  /\ (i <> o ->
      files (snd (convert_to_ico L i o s w)) !! i = files w !! i).
Proof.
  intros Hframe.
  assert (Hothers : forall p : string, p <> o ->
            files (snd (convert_to_ico L i o s w)) !! p = files w !! p).
  { intros p Hp.
    run_converter L w i o s; try reflexivity;
      match goal with
      | Hs : Image_save L ?img o "ICO" s (files w) = (?f, _) |- _ =>
          pose proof (Hframe img o "ICO" s (files w) p Hp) as Hf;
          rewrite Hs in Hf; exact Hf
      end. }
  split; [exact Hothers | intros Hio; now apply Hothers].
Qed.

(** A run of C10 as amended: converting [photo.jpg] to [out.ico] leaves
    [photo.jpg] as it was. *)
Lemma only_output_path_written_witness :
  files (snd (convert_to_ico Standin.good "photo.jpg" "out.ico"
                [(16, 16)%Z] Standin.world0)) !! "photo.jpg"
  = files Standin.world0 !! "photo.jpg".
Proof.
  apply (only_output_path_written Standin.good Standin.world0
           "photo.jpg" "out.ico" [(16, 16)%Z] good_save_only_touches_path).
  discriminate.
Defined.

(** C10 as stated fails.  Nothing keeps the two paths apart: when the
    output path is the input path, the conversion succeeds and the source
    file has been overwritten by the ICO container, with a library that
    writes only where it is told to ([good_save_only_touches_path]). *)
Lemma source_overwritten_when_paths_coincide :
  fst (convert_to_ico Standin.good "photo.png" "photo.png" [(16, 16)%Z]
         Standin.world0) = inr true
  /\ files Standin.world0 !! "photo.png" = Some [Byte.x89; Byte.x50]
  /\ files (snd (convert_to_ico Standin.good "photo.png" "photo.png"
                   [(16, 16)%Z] Standin.world0)) !! "photo.png"
     = Some [Byte.x00; Byte.x00; Byte.x01; Byte.x00; Byte.x01; Byte.x00;
             Byte.x10; Byte.x10].
Proof. repeat split; vm_compute; reflexivity. Qed.




End ConverterFacts.

(** ** The Convert button *)

Module GuiFacts.

Import Runtime Gui.
Local Open Scope string_scope.

Lemma not_str_true (s : string) : not_str s = true <-> s = "".
Proof. destruct s; simpl; split; congruence. Qed.

Lemma not_list_true {A} (l : list A) : not_list l = true <-> l = [].
Proof. destruct l; simpl; split; congruence. Qed.

Lemma filter_none {A} (f : A -> bool) (l : list A) :
  (forall x, In x l -> f x = false) -> List.filter f l = [].
Proof.
  induction l as [| x l IH]; intros H; simpl; [reflexivity |].
  rewrite (H x (or_introl eq_refl)). apply IH.
  intros y Hy. apply H. now right.
Qed.

(** No individual flag set and "All Sizes" clear: nothing is selected. *)
Lemma nothing_selected (var_get : Z -> bool) :
  (forall s, In s Selector.sizes -> var_get s = false) ->
  Selector.select_sizes false (Selector.size_vars var_get) = [].
Proof.
  intros H. rewrite SelectorFacts.select_individual, filter_none; trivial.
Qed.

(** Run [convert] up to the call of [convert_to_ico]. *)
Ltac run_convert form chosen :=
  unfold convert, asksaveasfilename, bind, log, ret;
  destruct (input_entry form) as [| c0 input0] eqn:Hinput;
  cbn [not_str fst snd emit trace files];
  [| destruct chosen as [| c1 chosen1];
     cbn [not_str fst snd emit trace files] ].

(** When both paths are present and something is selected, the handler
    enters [convert_to_ico] with the input path, the chosen output path and
    the selector's list, right after the save dialog. *)
Lemma convert_hands_selection (L : Pillow) (form : Form) (chosen : string)
    (w : World) :
  input_entry form <> "" -> chosen <> "" ->
  Selector.select_sizes (all_sizes_var form)
    (Selector.size_vars (size_var form)) <> [] ->
  exists rest,
    since w (snd (convert L form chosen w))
    = EvAskSave ".ico"
      :: EvCall (input_entry form) chosen
           (Selector.select_sizes (all_sizes_var form)
              (Selector.size_vars (size_var form)))
      :: rest.
Proof.
  intros Hi Hc Hs.
  run_convert form chosen; try congruence.
  destruct (Selector.select_sizes (all_sizes_var form)
              (Selector.size_vars (size_var form))) as [| p l] eqn:Hsel;
    [congruence |].
  cbn [not_list].
  set (w1 := emit (EvAskSave ".ico") w).
  set (i := String c0 input0). set (o := String c1 chosen1).
  ConverterFacts.run_converter L w1 i o (p :: l);
    subst w1; ConverterFacts.read_trace; eexists; reflexivity.
Qed.

(** C3: with "All Sizes" clear and every individual flag clear the produced
    size list is empty, [convert_to_ico] is never entered, and, once the
    list has been produced -- an input path is present and the save dialog
    returned a path -- the only message shown is the warning "Please select
    at least one icon size.". *)
Theorem empty_selection_warns (L : Pillow) (form : Form) (chosen : string)
    (w : World) :
  all_sizes_var form = false ->
  (forall s, In s Selector.sizes -> size_var form s = false) ->
  let t := since w (snd (convert L form chosen w)) in
  Selector.select_sizes (all_sizes_var form)
    (Selector.size_vars (size_var form)) = []
  /\ converter_invoked t = false
  /\ (input_entry form <> "" -> chosen <> "" ->
      t = [EvAskSave ".ico";
           EvWarning "Warning" "Please select at least one icon size."]
      /\ warnings t = ["Please select at least one icon size."]).
Proof.
  intros Hall Hflags t. subst t. rewrite Hall.
  pose proof (nothing_selected _ Hflags) as Hnone.
  split; [exact Hnone |].
  run_convert form chosen; rewrite ?Hall, ?Hnone;
    cbn [not_list fst snd emit trace files];
    ConverterFacts.read_trace;
    (split; [reflexivity |]); intros Hi Hc;
    try congruence; split; reflexivity.
Qed.

(** A run of C3: a form with an input path, no flag set, and a chosen
    output path. *)
Lemma empty_selection_warns_witness :
  since Standin.world0
    (snd (convert Standin.good
            {| input_entry := "photo.png"; all_sizes_var := false;
               size_var := fun _ => false |}
            "out.ico" Standin.world0))
  = [EvAskSave ".ico";
     EvWarning "Warning" "Please select at least one icon size."].
Proof.
  destruct (empty_selection_warns Standin.good
              {| input_entry := "photo.png"; all_sizes_var := false;
                 size_var := fun _ => false |}
              "out.ico" Standin.world0 eq_refl (fun _ _ => eq_refl))
    as [_ [_ H]].
  destruct H as [H _]; [discriminate | discriminate | exact H].
Defined.

(** C6, as the code has it: a missing input path and an empty size
    selection are each surfaced as a warning dialog, and the conversion is
    aborted; a missing output path -- the save dialog was cancelled --
    aborts the conversion too, but with no message.  In all three cases
    [convert_to_ico] is not entered, no file is touched and the handler
    returns normally. *)
Theorem validation_failures (L : Pillow) (form : Form) (chosen : string)
    (w : World) :
  let r := convert L form chosen w in
  let t := since w (snd r) in
  let sizes := Selector.select_sizes (all_sizes_var form)
                 (Selector.size_vars (size_var form)) in
  (input_entry form = "" ->
     t = [EvWarning "Warning" "Please select an input file."])
  /\ (input_entry form <> "" -> chosen = "" -> t = [EvAskSave ".ico"])
  /\ (input_entry form <> "" -> chosen <> "" -> sizes = [] ->
      t = [EvAskSave ".ico";
           EvWarning "Warning" "Please select at least one icon size."])
  /\ (input_entry form = "" \/ chosen = "" \/ sizes = [] ->
      converter_invoked t = false
      /\ files (snd r) = files w
      /\ open_fps (snd r) = open_fps w
      /\ fst r = inr tt).
Proof.
  cbv zeta.
  run_convert form chosen.
  - ConverterFacts.read_trace. repeat split; intros; congruence.
  - ConverterFacts.read_trace. repeat split; intros; congruence.
  - destruct (Selector.select_sizes (all_sizes_var form)
                (Selector.size_vars (size_var form))) as [| p l] eqn:Hsel;
      cbn [not_list fst snd emit trace files].
    + ConverterFacts.read_trace. repeat split; intros; congruence.
    + split; [intros; congruence |].
      split; [intros; congruence |].
      split; [intros; congruence |].
      intros [H | [H | H]]; congruence.
Qed.

(** A run of C6 as amended: an empty input field gives the input warning
    and nothing else. *)
Lemma validation_failures_witness :
  since Standin.world0
    (snd (convert Standin.good
            {| input_entry := ""; all_sizes_var := true;
               size_var := fun _ => false |}
            "out.ico" Standin.world0))
  = [EvWarning "Warning" "Please select an input file."].
Proof.
  destruct (validation_failures Standin.good
              {| input_entry := ""; all_sizes_var := true;
                 size_var := fun _ => false |}
              "out.ico" Standin.world0) as [H _].
  exact (H eq_refl).
Defined.

(** C6 as stated fails.  With an input path present and the save dialog
    cancelled, the output path is missing and the conversion is aborted,
    but no warning is shown: the dialog is the only thing that happened. *)
Lemma cancelled_dialog_is_silent :
  since Standin.world0
    (snd (convert Standin.good
            {| input_entry := "photo.png"; all_sizes_var := true;
               size_var := fun _ => false |}
            "" Standin.world0))
  = [EvAskSave ".ico"]
  /\ warnings
       (since Standin.world0
          (snd (convert Standin.good
                  {| input_entry := "photo.png"; all_sizes_var := true;
                     size_var := fun _ => false |}
                  "" Standin.world0)))
     = []
  /\ converter_invoked
       (since Standin.world0
          (snd (convert Standin.good
                  {| input_entry := "photo.png"; all_sizes_var := true;
                     size_var := fun _ => false |}
                  "" Standin.world0)))
     = false.
Proof. repeat split; vm_compute; reflexivity. Qed.

End GuiFacts.

(** ** The window and its callbacks *)

Module WindowFacts.

Import Runtime Gui Window.
Local Open Scope string_scope.

Lemma substring_none (t : string) (n : nat) : String.substring n 0 t = "".
Proof.
  revert n. induction t as [| c t IH]; intros [| n]; simpl; try reflexivity.
  apply IH.
Qed.

Lemma append_empty (t : string) : String.append t "" = t.
Proof.
  induction t as [| c t IH]; [reflexivity |].
  change (String c (String.append t "") = String c t). now rewrite IH.
Qed.

(** [entry.delete(0, tk.END)] empties the entry, whatever it held. *)
Lemma delete_all (text : string) : entry_delete (At 0) END text = "".
Proof.
  unfold entry_delete, index_pos. rewrite Nat.min_0_l.
  destruct text as [| c text]; [reflexivity |].
  cbn [String.length Nat.leb]. rewrite Nat.sub_diag, !substring_none.
  reflexivity.
Qed.

(** [entry.insert(0, s)] on an empty entry leaves exactly [s]. *)
Lemma insert_into_empty (s : string) : entry_insert (At 0) s "" = s.
Proof.
  unfold entry_insert, index_pos. cbn [String.length Nat.min Nat.sub].
  rewrite !substring_none. cbn [String.append]. apply append_empty.
Qed.

(** X1: the Browse callback replaces the text of the input entry by the
    chosen path -- whatever the entry held, nothing of it survives and the
    path is not appended to it -- and a cancelled dialog leaves the window
    exactly as it was.  In both cases the size widgets are untouched. *)
Theorem browse_replaces_entry (chosen : string) (win : Widgets) :
  (chosen <> "" -> entry_text (select_input_file chosen win) = chosen)
  /\ (chosen = "" -> select_input_file chosen win = win)
  /\ all_sizes (select_input_file chosen win) = all_sizes win
  /\ vars (select_input_file chosen win) = vars win
  /\ size_checkbuttons (select_input_file chosen win) = size_checkbuttons win.
Proof.
  unfold select_input_file.
  destruct chosen as [| c chosen]; cbn [not_str].
  - repeat split; congruence.
  - cbn [entry_text all_sizes vars size_checkbuttons].
    rewrite delete_all, insert_into_empty.
    repeat split; congruence.
Qed.

Lemma flip_var_keys (size : Z) (d : list (Z * bool)) :
  map fst (flip_var size d) = map fst d.
Proof.
  unfold flip_var. rewrite map_map. apply map_ext.
  intros [k v]. cbn [fst snd]. now destruct (Z.eqb k size).
Qed.

Lemma var_get_flip_other (size : Z) (d : list (Z * bool)) (s : Z) :
  s <> size -> var_get (flip_var size d) s = var_get d s.
Proof.
  intros Hne.
  induction d as [| [k v] d IH]; cbn [flip_var map var_get fst snd];
    [reflexivity |].
  fold (flip_var size d).
  destruct (Z.eqb k size) eqn:Hk; cbn [var_get fst snd];
    destruct (Z.eqb k s) eqn:Hs; try exact IH; try reflexivity.
  apply Z.eqb_eq in Hk, Hs. congruence.
Qed.

Lemma var_get_flip_same (size : Z) (d : list (Z * bool)) :
  In size (map fst d) ->
  var_get (flip_var size d) size = negb (var_get d size).
Proof.
  induction d as [| [k v] d IH]; cbn [flip_var map var_get fst snd In];
    [contradiction |].
  fold (flip_var size d). intros Hin.
  destruct (Z.eqb k size) eqn:Hk; cbn [var_get fst snd]; rewrite Hk;
    [reflexivity |].
  apply IH. destruct Hin as [-> | Hin]; [| exact Hin].
  now rewrite Z.eqb_refl in Hk.
Qed.

(** A dictionary with distinct keys is the list of its keys, each with the
    value [var_get] reads for it. *)
Lemma dict_items (d : list (Z * bool)) :
  List.NoDup (map fst d) ->
  map (fun s => (s, var_get d s)) (map fst d) = d.
Proof.
  induction d as [| [k v] d IH]; intros Hnd; [reflexivity |].
  inversion Hnd as [| k' ks Hnot Hrest]; subst.
  cbn [map fst var_get]. rewrite Z.eqb_refl. f_equal.
  rewrite <- (IH Hrest) at 2.
  apply map_ext_in. intros s Hs.
  destruct (Z.eqb k s) eqn:Hks; [| reflexivity].
  apply Z.eqb_eq in Hks. subst. contradiction.
Qed.

Lemma sizes_distinct : List.NoDup Selector.sizes.
Proof.
  apply SelectorFacts.ascending_NoDup, SelectorFacts.sizes_ascending.
Qed.

(** When the dictionary has the keys of [sizes], the dictionary that
    [convert] iterates over is the window's. *)
Lemma form_sees_vars (win : Widgets) :
  map fst (vars win) = Selector.sizes ->
  Selector.size_vars (size_var (form_of win)) = vars win.
Proof.
  intros Hkeys. rewrite SelectorFacts.size_vars_items.
  cbn [form_of size_var]. rewrite <- Hkeys.
  apply dict_items. rewrite Hkeys. apply sizes_distinct.
Qed.

Lemma startup_in_step : in_step startup.
Proof.
  repeat split. cbn.
  repeat (constructor; [reflexivity |]). constructor.
Qed.

Lemma step_in_step (win : Widgets) (a : action) :
  in_step win -> in_step (step win a).
Proof.
  intros [Hkeys [Hcbs Hstate]].
  destruct a as [| n | text | chosen |]; cbn [step].
  - unfold toggle_all_sizes, in_step.
    cbn [vars size_checkbuttons all_sizes].
    split; [exact Hkeys |]. split.
    + rewrite map_map. exact Hcbs.
    + apply List.Forall_forall. intros cb Hcb.
      apply in_map_iff in Hcb. destruct Hcb as [cb0 [<- _]]. reflexivity.
  - destruct (nth_error (size_checkbuttons win) n) as [cb |];
      [| now repeat split].
    destruct (cb_state cb); [| now repeat split].
    unfold in_step. cbn [vars size_checkbuttons all_sizes].
    rewrite flip_var_keys. now repeat split.
  - now repeat split.
  - unfold select_input_file. destruct (not_str chosen); now repeat split.
  - now repeat split.
Qed.

Lemma after_in_step (actions : list action) : in_step (after actions).
Proof.
  unfold after. generalize startup_in_step. generalize startup.
  induction actions as [| a actions IH]; intros win Hwin; cbn [fold_left].
  - exact Hwin.
  - apply IH, step_in_step, Hwin.
Qed.

(** X2: whatever the user does -- clicking "All Sizes", clicking size
    checkboxes, typing, browsing, converting, in any order -- the six size
    checkboxes are all disabled exactly while "All Sizes" is set and all
    enabled while it is clear; there remain six of them, one per size and
    in the order of [sizes]; and the dictionary [convert] iterates over is
    the window's dictionary of variables. *)
Theorem size_boxes_follow_all_sizes (actions : list action) :
  let win := after actions in
  List.Forall
    (fun cb => cb_state cb = if all_sizes win then DISABLED else NORMAL)
    (size_checkbuttons win)
  /\ map cb_variable (size_checkbuttons win) = [16; 32; 48; 64; 128; 256]%Z
  /\ map fst (vars win) = [16; 32; 48; 64; 128; 256]%Z
  /\ Selector.size_vars (size_var (form_of win)) = vars win.
Proof.
  cbv zeta. destruct (after_in_step actions) as [Hkeys [Hcbs Hstate]].
  repeat split; try assumption. now apply form_sees_vars.
Qed.

Lemma box_at (win : Widgets) (n : nat) (cb : Checkbutton) :
  in_step win ->
  nth_error (size_checkbuttons win) n = Some cb ->
  cb_state cb = (if all_sizes win then DISABLED else NORMAL)
  /\ nth_error Selector.sizes n = Some (cb_variable cb).
Proof.
  intros [_ [Hcbs Hstate]] Hn. split.
  - rewrite List.Forall_forall in Hstate. apply Hstate.
    eapply nth_error_In, Hn.
  - rewrite <- Hcbs. now apply map_nth_error.
Qed.

(** X3: while "All Sizes" is set, a click on any size checkbox changes
    nothing at all: the individual flags keep the values they had when
    "All Sizes" was set. *)
Theorem size_clicks_locked (actions : list action) (n : nat) :
  all_sizes (after actions) = true ->
  step (after actions) (ClickSize n) = after actions.
Proof.
  intros Hall. cbn [step].
  destruct (nth_error (size_checkbuttons (after actions)) n) as [cb |] eqn:Hn;
    [| reflexivity].
  destruct (box_at _ _ _ (after_in_step actions) Hn) as [Hstate _].
  rewrite Hall in Hstate. now rewrite Hstate.
Qed.

Lemma size_clicks_locked_witness :
  step (after [ClickSize 0%nat; TypeText "a.png"]) (ClickSize 2%nat)
  = after [ClickSize 0%nat; TypeText "a.png"].
Proof.
  apply (size_clicks_locked [ClickSize 0%nat; TypeText "a.png"] 2%nat).
  reflexivity.
Defined.

(** X4: while "All Sizes" is clear, a click on the [n]-th size checkbox
    inverts the flag of the [n]-th size and no other flag, and leaves the
    entry and "All Sizes" as they were. *)
Theorem size_click_flips_one (actions : list action) (n : nat) (size : Z) :
  all_sizes (after actions) = false ->
  nth_error Selector.sizes n = Some size ->
  let win := after actions in
  let win' := step win (ClickSize n) in
  size_var (form_of win') size = negb (size_var (form_of win) size)
  /\ (forall s, s <> size ->
        size_var (form_of win') s = size_var (form_of win) s)
  /\ all_sizes win' = false
  /\ entry_text win' = entry_text win
  /\ size_checkbuttons win' = size_checkbuttons win.
Proof.
  intros Hall Hsize win win'. subst win win'.
  pose proof (after_in_step actions) as Hstep.
  destruct Hstep as [Hkeys [Hcbs Hstate]].
  assert (Hsome : exists cb,
             nth_error (size_checkbuttons (after actions)) n = Some cb).
  { destruct (nth_error (size_checkbuttons (after actions)) n) as [cb |] eqn:Hn;
      [eauto |].
    rewrite <- Hcbs, nth_error_map, Hn in Hsize. discriminate. }
  destruct Hsome as [cb Hn].
  destruct (box_at _ _ _ (after_in_step actions) Hn) as [Hcb Hvar].
  rewrite Hall in Hcb. rewrite Hsize in Hvar. injection Hvar as Hvar.
  cbn [step]. rewrite Hn, Hcb.
  cbn [form_of size_var vars all_sizes entry_text size_checkbuttons].
  rewrite <- Hvar.
  split; [| split; [| repeat split; assumption]].
  - apply var_get_flip_same. rewrite Hkeys.
    eapply nth_error_In. exact Hsize.
  - intros s Hs. now apply var_get_flip_other.
Qed.

Lemma size_click_flips_one_witness :
  size_var (form_of (step (after [ClickAllSizes]) (ClickSize 1%nat))) 32%Z
  = negb (size_var (form_of (after [ClickAllSizes])) 32%Z).
Proof.
  apply (size_click_flips_one [ClickAllSizes] 1%nat 32%Z);
    reflexivity.
Defined.

Lemma enumerate_indices {A} (l : list A) (start : nat) :
  map fst (combine (map Z.of_nat (seq start (length l))) l)
  = map Z.of_nat (seq start (length l)).
Proof.
  revert start. induction l as [| x l IH]; intros start; cbn; [reflexivity |].
  f_equal. apply IH.
Qed.

Lemma built_cells (items : list (Z * Z)) (d : list (Z * bool))
    (cbs : list Checkbutton) :
  map (fun cb => (cb_row cb, cb_column cb))
      (snd (fold_left add_size items (d, cbs)))
  = (map (fun cb => (cb_row cb, cb_column cb)) cbs
     ++ map (fun item => grid_cell (fst item)) items)%list.
Proof.
  revert d cbs. induction items as [| [i size] items IH]; intros d cbs.
  - cbn. now rewrite app_nil_r.
  - cbn [fold_left add_size fst snd]. rewrite IH, map_app, <- app_assoc.
    cbn [map app cb_row cb_column fst snd].
    now destruct (grid_cell i).
Qed.

Lemma grid_cell_injective (i j : Z) :
  (0 <= i)%Z -> (0 <= j)%Z -> grid_cell i = grid_cell j -> i = j.
Proof.
  unfold grid_cell. intros Hi Hj H. injection H as Hrow Hcol.
  pose proof (Z.div_mod i 3). pose proof (Z.div_mod j 3). lia.
Qed.

(** X5: for any list of sizes the start-up loop lays the checkboxes out
    three to a row from row 1 on: no two of them share a grid cell, every
    column is 0, 1 or 2, and none lands on row 0, where "All Sizes" sits
    (line 156). *)
Theorem size_boxes_do_not_overlap (sizes : list Z) :
  let cells := map (fun cb => (cb_row cb, cb_column cb))
                   (size_checkbuttons (build sizes)) in
  List.NoDup cells
  /\ length cells = length sizes
  /\ List.Forall (fun c => (1 <= fst c)%Z /\ (0 <= snd c <= 2)%Z) cells.
Proof.
  cbv zeta. unfold build. cbn [size_checkbuttons].
  rewrite built_cells. cbn [map app].
  rewrite <- map_map. unfold enumerate. rewrite enumerate_indices.
  split; [| split].
  - apply NoDup_map_NoDup_ForallPairs.
    + intros x y Hx Hy Heq.
      apply in_map_iff in Hx, Hy.
      destruct Hx as [a [<- _]]. destruct Hy as [b [<- _]].
      f_equal. apply Nat2Z.inj.
      apply grid_cell_injective; [lia | lia | exact Heq].
    + apply NoDup_map_NoDup_ForallPairs; [| apply seq_NoDup].
      intros x y _ _ H. now apply Nat2Z.inj.
  - now rewrite !length_map, length_seq.
  - apply List.Forall_forall. intros c Hc.
    apply in_map_iff in Hc. destruct Hc as [i [<- Hi]].
    apply in_map_iff in Hi. destruct Hi as [k [<- _]].
    unfold grid_cell. cbn [fst snd].
    pose proof (Z.mod_pos_bound (Z.of_nat k) 3).
    pose proof (Z.div_pos (Z.of_nat k) 3). lia.
Qed.

End WindowFacts.

(** ** More on the size selector *)

Module SelectorMore.

Import Selector.

Lemma filter_nil_all {A} (f : A -> bool) (l : list A) :
  List.filter f l = [] <-> (forall x, In x l -> f x = false).
Proof.
  induction l as [| a l IH]; cbn [List.filter In].
  - split; [intros _ x [] | reflexivity].
  - destruct (f a) eqn:Ha.
    + split; [discriminate |].
      intros H. rewrite (H a (or_introl eq_refl)) in Ha. discriminate.
    + rewrite IH. split.
      * intros H x [<- | Hx]; [exact Ha | now apply H].
      * intros H x Hx. apply H. now right.
Qed.

Lemma filter_all {A} (f : A -> bool) (l : list A) :
  (forall x, In x l -> f x = true) -> List.filter f l = l.
Proof.
  induction l as [| a l IH]; intros H; cbn [List.filter]; [reflexivity |].
  rewrite (H a (or_introl eq_refl)). f_equal. apply IH.
  intros x Hx. apply H. now right.
Qed.

Lemma map_square_nil (l : list Z) : map square l = [] <-> l = [].
Proof. destruct l; cbn; split; congruence. Qed.

(** X6: the selector produces the empty list exactly when "All Sizes" is
    clear and none of the six individual flags is set; in every other
    state of the checkboxes something is selected. *)
Theorem selection_empty_iff (all : bool) (var_get : Z -> bool) :
  select_sizes all (size_vars var_get) = []
  <-> all = false /\ (forall s, In s sizes -> var_get s = false).
Proof.
  destruct all.
  - split; [discriminate | intros [H _]; discriminate].
  - rewrite SelectorFacts.select_individual, map_square_nil, filter_nil_all.
    split; [intros H; split; [reflexivity | exact H] | intros [_ H]; exact H].
Qed.

(** X7: setting all six individual flags with "All Sizes" clear selects
    the same list, in the same order, as setting "All Sizes". *)
Theorem all_boxes_checked_is_all_sizes (var_get : Z -> bool) :
  (forall s, In s sizes -> var_get s = true) ->
  select_sizes false (size_vars var_get)
  = select_sizes true (size_vars var_get).
Proof.
  intros H. rewrite SelectorFacts.select_individual, (filter_all _ _ H).
  reflexivity.
Qed.

Lemma all_boxes_checked_is_all_sizes_witness :
  select_sizes false (size_vars (fun s => Z.leb 16 s))
  = select_sizes true (size_vars (fun s => Z.leb 16 s)).
Proof.
  apply (all_boxes_checked_is_all_sizes (fun s => Z.leb 16 s)).
  intros s Hs. cbn in Hs.
  destruct Hs as [<- | [<- | [<- | [<- | [<- | [<- | []]]]]]]; reflexivity.
Defined.

End SelectorMore.

(** ** More on the converter *)

Module ConverterMore.

Import Runtime.
Local Open Scope string_scope.

(** X8: [convert_to_ico] returns [True] exactly when it showed no error
    dialog.  When it returns [True], [save] was called exactly once, with
    the output path, the ICO format and the requested sizes, that call
    raised nothing, and the files are as it left them.  [save] is never
    called twice, and when it is not called no file is changed. *)
Theorem true_iff_no_error_dialog (L : Pillow) (w : World) (i o : string)
    (s : list (Z * Z)) :
  let r := convert_to_ico L i o s w in
  let t := since w (snd r) in
  (fst r = inr true <-> errors t = [])
  /\ (fst r = inr true ->
      exists img,
        saves t = [(img, o, "ICO", s)]
        /\ Image_save L img o "ICO" s (files w) = (files (snd r), None))
  /\ (saves t = [] -> files (snd r) = files w)
  /\ (length (saves t) <= 1)%nat.
Proof.
  cbv zeta.
  ConverterFacts.run_converter L w i o s; ConverterFacts.read_trace;
    cbn [errors saves flat_map app length].
  all: split; [split; intros H; (reflexivity || discriminate) |].
  all: split;
    [intros H; first [discriminate | eexists; split; [reflexivity | eassumption]]
    |].
  all: split; [intros H; (reflexivity || discriminate) | lia].
Qed.

End ConverterMore.

(** ** More on the Convert button *)

Module GuiMore.

Import Runtime Gui Dialogs.
Local Open Scope string_scope.

(** Run [convert] to the end: one goal per way through the handler and,
    past the validation, per outcome of the three library calls. *)
Ltac run_handler L form chosen w :=
  GuiFacts.run_convert form chosen;
  [ | |
    destruct (Selector.select_sizes (all_sizes_var form)
                (Selector.size_vars (size_var form))) as [| p l] eqn:Hsel;
    cbn [not_list fst snd emit trace files];
    [ |
      let w1 := fresh "w1" in
      let i := fresh "i" in
      let o := fresh "o" in
      set (w1 := emit (EvAskSave ".ico") w);
      match goal with
      | |- context [convert_to_ico L ?a ?b (p :: l) w1] =>
          set (i := a); set (o := b)
      end;
      ConverterFacts.run_converter L w1 i o (p :: l);
      subst w1 i o;
      cbn [files open_fps next_fp emit] in * ] ];
  rewrite ?ConverterFacts.remove_first_head;
  ConverterFacts.read_trace.

(** X9: no exception escapes the Convert handler: whatever the form holds,
    whatever the user answers and whatever the library does, [convert]
    returns normally, with every handle it acquired released and the set
    of open handles as before, and it enters [convert_to_ico] at most
    once. *)
Theorem handler_always_returns (L : Pillow) (form : Form) (chosen : string)
    (w : World) :
  let r := convert L form chosen w in
  let t := since w (snd r) in
  fst r = inr tt
  /\ open_fps (snd r) = open_fps w
  /\ released t = acquired t
  /\ (length (calls t) <= 1)%nat.
Proof.
  cbv zeta. run_handler L form chosen w;
    cbn [released acquired calls flat_map app length];
    repeat split; lia.
Qed.

(** X10: a click on Convert shows at most one message box, and shows none
    only when the save dialog was cancelled.  The box is the last thing
    the handler does: by the time it is on screen, every file handle the
    handler acquired has been released. *)
Theorem one_message_box_last (L : Pillow) (form : Form) (chosen : string)
    (w : World) :
  let t := since w (snd (convert L form chosen w)) in
  (input_entry form <> "" -> chosen = "" -> dialogs t = [])
  /\ (input_entry form = "" \/ chosen <> "" ->
      exists pre d,
        t = (pre ++ [d])%list
        /\ is_dialog d = true
        /\ dialogs pre = []
        /\ released pre = acquired pre).
Proof.
  cbv zeta. run_handler L form chosen w.
  all: split; [intros Hi Hc; first [reflexivity | congruence] |].
  all: intros Hor;
    try (destruct Hor; congruence).
  all: match goal with
       | |- exists pre d, ?t = _ /\ _ =>
           exists (List.removelast t), (List.last t (EvAskSave ""))
       end;
    cbn [List.removelast List.last app];
    repeat split.
Qed.

(** The call the handler makes once the form passes validation. *)
Lemma handler_call (L : Pillow) (form : Form) (chosen : string) (w : World) :
  input_entry form <> "" -> chosen <> "" ->
  Selector.select_sizes (all_sizes_var form)
    (Selector.size_vars (size_var form)) <> [] ->
  calls (since w (snd (convert L form chosen w)))
  = [(input_entry form, chosen,
      Selector.select_sizes (all_sizes_var form)
        (Selector.size_vars (size_var form)))].
Proof.
  intros Hi Hc Hs. run_handler L form chosen w; try congruence;
    cbn [calls flat_map app]; reflexivity.
Qed.

(** X11: once the form passes validation -- an input path, an output path
    and a non-empty selection -- the handler shows no warning, enters
    [convert_to_ico] exactly once with the entry's text, the chosen path
    and the selected sizes, and then shows either the success box, naming
    both paths, and no error box, or one error box and no success box:
    never both and never neither. *)
Theorem conversion_feedback (L : Pillow) (form : Form) (chosen : string)
    (w : World) :
  input_entry form <> "" -> chosen <> "" ->
  Selector.select_sizes (all_sizes_var form)
    (Selector.size_vars (size_var form)) <> [] ->
  let r := convert L form chosen w in
  let t := since w (snd r) in
  warnings t = []
  /\ calls t
     = [(input_entry form, chosen,
         Selector.select_sizes (all_sizes_var form)
           (Selector.size_vars (size_var form)))]
  /\ (infos t
      = [String.append "Successfully converted "
           (String.append (input_entry form) (String.append " to " chosen))]
      /\ errors t = []
      /\ (exists img f',
            Image_save L img chosen "ICO"
              (Selector.select_sizes (all_sizes_var form)
                 (Selector.size_vars (size_var form))) (files w)
            = (f', None)
            /\ files (snd r) = f')
      \/ infos t = []
         /\ exists e,
              errors t
              = [String.append "An error occurred: " (exc_str e)]).
Proof.
  intros Hi Hc Hs. cbv zeta.
  run_handler L form chosen w; try congruence;
    cbn [warnings calls infos errors flat_map app];
    (split; [reflexivity |]); (split; [reflexivity |]).
  all: first
         [ right; split; [reflexivity | eexists; reflexivity]
         | left; split; [reflexivity |]; split; [reflexivity |];
           eexists; eexists; split; [eassumption | reflexivity] ].
Qed.

Lemma conversion_feedback_witness :
  warnings
    (since Standin.world0
       (snd (convert Standin.good
               {| input_entry := "photo.jpg"; all_sizes_var := true;
                  size_var := fun _ => false |}
               "out.ico" Standin.world0)))
  = [].
Proof.
  destruct (conversion_feedback Standin.good
              {| input_entry := "photo.jpg"; all_sizes_var := true;
                 size_var := fun _ => false |}
              "out.ico" Standin.world0) as [H _];
    [discriminate | discriminate | discriminate | exact H].
Defined.

(** X12: with a library whose [save] touches only the path it is handed,
    a click on Convert changes no file other than the one at the path
    chosen in the save dialog -- whichever way the handler goes. *)
Theorem handler_writes_only_chosen_path (L : Pillow) (form : Form)
    (chosen : string) (w : World) :
  save_only_touches_path L ->
  forall q : string, q <> chosen ->
    files (snd (convert L form chosen w)) !! q = files w !! q.
Proof.
  intros Hframe q Hq.
  run_handler L form chosen w; try reflexivity;
    match goal with
    | Hs : Image_save L ?img ?o "ICO" ?s (files w) = (_, _) |- _ =>
        pose proof (Hframe img o "ICO" s (files w) q Hq) as Hf;
        rewrite Hs in Hf; exact Hf
    end.
Qed.

Lemma handler_writes_only_chosen_path_witness :
  files (snd (convert Standin.good
                {| input_entry := "photo.jpg"; all_sizes_var := true;
                   size_var := fun _ => false |}
                "out.ico" Standin.world0)) !! "photo.png"
  = files Standin.world0 !! "photo.png".
Proof.
  apply (handler_writes_only_chosen_path Standin.good
           {| input_entry := "photo.jpg"; all_sizes_var := true;
              size_var := fun _ => false |}
           "out.ico" Standin.world0
           ConverterFacts.good_save_only_touches_path).
  discriminate.
Defined.

End GuiMore.

(** ** Browse, then Convert *)

Module Session.

Import Runtime Gui Window Dialogs.
Local Open Scope string_scope.

(** What [convert] reads off the window after a successful Browse. *)
Lemma form_after_browse (picked : string) (win : Widgets) :
  picked <> "" ->
  form_of (select_input_file picked win)
  = {| input_entry := picked;
       all_sizes_var := all_sizes win;
       size_var := var_get (vars win) |}.
Proof.
  intros Hp. unfold select_input_file, form_of.
  destruct picked as [| c picked]; [congruence |].
  cbn [not_str entry_text all_sizes vars].
  now rewrite WindowFacts.delete_all, WindowFacts.insert_into_empty.
Qed.

(** X13: after the user picks a file with Browse, a click on Convert that
    passes validation hands [convert_to_ico] exactly the picked path as
    input -- not what the entry held before -- together with the path
    chosen in the save dialog and the sizes selected in the window, which
    browsing did not change. *)
Theorem browse_then_convert (L : Pillow) (win : Widgets)
    (picked chosen : string) (w : World) :
  picked <> "" -> chosen <> "" ->
  Selector.select_sizes (all_sizes win)
    (Selector.size_vars (var_get (vars win))) <> [] ->
  calls (since w
           (snd (convert L (form_of (select_input_file picked win))
                   chosen w)))
  = [(picked, chosen,
      Selector.select_sizes (all_sizes win)
        (Selector.size_vars (var_get (vars win))))].
Proof.
  intros Hp Hc Hs. rewrite (form_after_browse _ _ Hp).
  now apply (GuiMore.handler_call L
               {| input_entry := picked; all_sizes_var := all_sizes win;
                  size_var := var_get (vars win) |}).
Qed.

Lemma browse_then_convert_witness :
  calls (since Standin.world0
           (snd (convert Standin.good
                   (form_of
                      (select_input_file "photo.png"
                         (step startup (TypeText "old.jpg"))))
                   "out.ico" Standin.world0)))
  = [("photo.png", "out.ico",
      [(16, 16); (32, 32); (48, 48); (64, 64); (128, 128); (256, 256)]%Z)].
Proof.
  apply (browse_then_convert Standin.good
           (step startup (TypeText "old.jpg")) "photo.png" "out.ico"
           Standin.world0);
    discriminate.
Defined.

End Session.
